(** * BGData: the native-routine registration unit, [src/init.c]

    The translation unit declares two kernels ([summarize], [rayOLS]) that are
    defined elsewhere, builds the static table [callMethods] of [.Call]
    descriptors, and defines the library initializer [R_init_BGData], which
    hands the table to the host (R) and sets two lookup flags on the library
    handle.

    Layout of this development:
    - [Decls]     the declarations of the translation unit;
    - [Table]     the descriptor table and the way a table is read;
    - [HostApi]   the three host entry points the initializer calls, as the
                  actions of a small free monad, and the initializer itself;
    - [HostSem]   what is assumed of the host (an interface and its laws);
    - [RHost]     a reference host that satisfies the laws;
    - [Expected]  the values the statements compare the code with;
    - lemmas on the table and on executions, then one theorem per claim;
    - further properties of the unit (X1 to X4). *)

From stdpp Require Import base option list strings gmap.
From Stdlib Require Import ZArith.

Local Open Scope Z_scope.
Local Open Scope string_scope.
Local Open Scope list_scope.

(** ** Declarations of the translation unit *)

Module Decls.

(** The C types that occur in the signatures of [init.c]. *)
Inductive ctype : Type :=
| SEXP          (* opaque host value *)
| DllInfo_ptr   (* pointer to the host's library record *)
| void.

Inductive linkage : Type := External | Internal.

(** A function declaration: [fd_defined] tells a definition (with a body)
    from a mere [extern] declaration. *)
Record fundecl : Type := {
  fd_name : string;
  fd_linkage : linkage;
  fd_params : list ctype;
  fd_ret : ctype;
  fd_defined : bool
}.

(** The two kernels whose address the table takes (lines 6-7). *)
Inductive kernel : Type := summarize | rayOLS.

#[global] Instance kernel_eq_dec : EqDecision kernel.
Proof. solve_decision. Defined.

(** [extern SEXP summarize(SEXP);]  [extern SEXP rayOLS(SEXP, SEXP);] *)
Definition kernel_decl (k : kernel) : fundecl :=
  match k with
  | summarize =>
      {| fd_name := "summarize"; fd_linkage := External;
         fd_params := [SEXP]; fd_ret := SEXP; fd_defined := false |}
  | rayOLS =>
      {| fd_name := "rayOLS"; fd_linkage := External;
         fd_params := [SEXP; SEXP]; fd_ret := SEXP; fd_defined := false |}
  end.

(** [void R_init_BGData(DllInfo *dll) { ... }] *)
Definition R_init_BGData_decl : fundecl :=
  {| fd_name := "R_init_BGData"; fd_linkage := External;
     fd_params := [DllInfo_ptr]; fd_ret := void; fd_defined := true |}.

(** The functions of the unit, in the order of the file.  ([callMethods] is
    an object, not a function, and is [static]; see [Table].) *)
Definition functions : list fundecl :=
  [kernel_decl summarize; kernel_decl rayOLS; R_init_BGData_decl].

(** What the unit exports: the functions it defines with external linkage. *)
Definition is_exported (d : fundecl) : bool :=
  fd_defined d && match fd_linkage d with External => true | Internal => false end.

Definition exported : list fundecl := filter (fun d => is_exported d = true) functions.

(** Declared number of arguments of a kernel. *)
Definition kernel_arity (k : kernel) : Z := Z.of_nat (length (fd_params (kernel_decl k))).

(** The host's loader convention for the name of a package's initializer,
    [R_init_<package>].  The loader is host code; this is its first
    attempt, the name it builds from the package name as it is. *)
Definition init_symbol (package : string) : string := "R_init_" +:+ package.

End Decls.

(** ** The descriptor table *)

Module Table.
Import Decls.

(** [DL_FUNC]: a generic function pointer.  The only functions this unit can
    take the address of are the two kernels; [None] is [NULL]. *)
Definition DL_FUNC : Type := option kernel.

(** [R_CallMethodDef]: [{const char *name; DL_FUNC fun; int numArgs;}]. *)
Record R_CallMethodDef : Type := {
  name : option string;
  fun_ : DL_FUNC;
  numArgs : Z
}.

#[global] Instance R_CallMethodDef_eq_dec : EqDecision R_CallMethodDef.
Proof. solve_decision. Defined.

(** [static const R_CallMethodDef callMethods[]] (lines 9-13). *)
Definition callMethods : list R_CallMethodDef :=
  [ {| name := Some "C_summarize"; fun_ := Some summarize; numArgs := 1 |};
    {| name := Some "C_rayOLS"; fun_ := Some rayOLS; numArgs := 2 |};
    {| name := None; fun_ := None; numArgs := 0 |} ].

(** The sentinel descriptor [{NULL, NULL, 0}]. *)
Definition sentinel : R_CallMethodDef :=
  {| name := None; fun_ := None; numArgs := 0 |}.

(** How the host reads a null-terminated table (host code, not part of
    [init.c]): it stops at the first entry whose name is [NULL]; the entries
    before it are the published ones. *)
Fixpoint published (t : list R_CallMethodDef) : list (string * R_CallMethodDef) :=
  match t with
  | [] => []
  | e :: t' =>
      match name e with
      | None => []
      | Some n => (n, e) :: published t'
      end
  end.

(** Linear search by name, as the host does it (host code as well): the
    first published entry whose name compares equal. *)
Fixpoint find_entry (n : string) (l : list (string * R_CallMethodDef))
  : option R_CallMethodDef :=
  match l with
  | [] => None
  | (m, e) :: l' => if bool_decide (m = n) then Some e else find_entry n l'
  end.

(** The handle found under a name: [None] when there is no entry, or when
    the entry's pointer is [NULL]. *)
Definition lookup_handle (n : string) (l : list (string * R_CallMethodDef)) : DL_FUNC :=
  e ← find_entry n l; fun_ e.

Definition lookup_arity (n : string) (l : list (string * R_CallMethodDef)) : option Z :=
  numArgs <$> find_entry n l.

(** The non-null names of a table, in order. *)
Definition names (t : list R_CallMethodDef) : list string :=
  omap name t.

(** The pair (name, arity) of every entry that is not the sentinel. *)
Definition signatures (t : list R_CallMethodDef) : list (option string * Z) :=
  (fun e => (name e, numArgs e)) <$> filter (fun e => e ≠ sentinel) t.

End Table.

(** ** The host entry points and the initializer *)

Module HostApi.
Import Decls Table.

(** [DllInfo *]: the library handle the host passes on load, as an address;
    [0] is [NULL]. *)
Definition DllInfo_handle : Type := N.

(** [R_CMethodDef] (also [R_FortranMethodDef]): the descriptors of the [.C]
    and [.Fortran] categories.  [R_ExternalMethodDef] is [R_CallMethodDef]. *)
Record R_CMethodDef : Type := {
  c_name : option string;
  c_fun : DL_FUNC;
  c_numArgs : Z
}.

(** The host functions a package's C code reaches through the headers that
    [init.c] includes.  The three first are the registration facility
    ([R_ext/Rdynload.h]); [Rf_error] is the way C code raises a host error
    ([R.h]). *)
Inductive host_call : Type :=
| R_registerRoutines (info : DllInfo_handle)
    (croutines : option (list R_CMethodDef))
    (callRoutines : option (list R_CallMethodDef))
    (fortranRoutines : option (list R_CMethodDef))
    (externalRoutines : option (list R_CallMethodDef))
| R_useDynamicSymbols (info : DllInfo_handle) (value : bool)
| R_forceSymbols (info : DllInfo_handle) (value : bool)
| Rf_error (msg : string).

(** C return types: [int], [Rboolean] (the previous value of the flag),
    and no return at all. *)
Definition ret_ty (c : host_call) : Type :=
  match c with
  | R_registerRoutines _ _ _ _ _ => Z
  | R_useDynamicSymbols _ _ => bool
  | R_forceSymbols _ _ => bool
  | Rf_error _ => Empty_set
  end.

Definition is_registration_call (c : host_call) : bool :=
  match c with
  | Rf_error _ => false
  | _ => true
  end.

(** The library handle a host call is made on, if it has one. *)
Definition call_info (c : host_call) : option DllInfo_handle :=
  match c with
  | R_registerRoutines info _ _ _ _ => Some info
  | R_useDynamicSymbols info _ => Some info
  | R_forceSymbols info _ => Some info
  | Rf_error _ => None
  end.

(** Programs over the host: a value, or a host call and what follows its
    return. *)
Inductive prog (A : Type) : Type :=
| Ret (a : A)
| Do (c : host_call) (k : ret_ty c -> prog A).

Arguments Ret {A} a.
Arguments Do {A} c k.

Fixpoint prog_bind {A B} (f : A -> prog B) (p : prog A) : prog B :=
  match p with
  | Ret a => f a
  | Do c k => Do c (fun r => prog_bind f (k r))
  end.

#[global] Instance prog_ret : MRet prog := @Ret.
#[global] Instance prog_mbind : MBind prog := @prog_bind.

Definition call (c : host_call) : prog (ret_ty c) := Do c Ret.

(** [void R_init_BGData(DllInfo *dll)] (lines 15-19): three expression
    statements, each a host call whose return value is dropped, then the end
    of the [void] body. *)
Definition R_init_BGData (dll : DllInfo_handle) : prog unit :=
  call (R_registerRoutines dll None (Some callMethods) None None) ;;
  call (R_useDynamicSymbols dll false) ;;
  call (R_forceSymbols dll true) ;;
  mret tt.

End HostApi.

(** ** The host: interface, execution, and what is assumed of it *)

Module HostSem.
Import Decls Table HostApi.

(** The host is not part of this library.  It is taken as a parameter: a
    state, the effect of each entry point on it ([None]: the host raised an
    error, control does not come back), and three observations of a library
    handle. *)
Class Host : Type := {
  hstate : Type;
  host_step : forall c : host_call, hstate -> option (ret_ty c * hstate);
  (* is lookup by textual name enabled for the library? *)
  dynamic_lookup : DllInfo_handle -> hstate -> bool;
  (* must references go through the registered handles? *)
  forced_symbols : DllInfo_handle -> hstate -> bool;
  (* the [.Call] routines registered for the library *)
  call_routines : DllInfo_handle -> hstate -> list (string * R_CallMethodDef)
}.

(** The documented behaviour of the registration facility, as far as the
    initializer relies on it. *)
Class HostLaws (H : Host) : Prop := {
  register_call_routines d c t f e s r s' :
    host_step (R_registerRoutines d c (Some t) f e) s = Some (r, s') ->
    call_routines d s' = published t;
  useDynamicSymbols_sets d v s r s' :
    host_step (R_useDynamicSymbols d v) s = Some (r, s') ->
    dynamic_lookup d s' = v /\ call_routines d s' = call_routines d s;
  forceSymbols_sets d v s r s' :
    host_step (R_forceSymbols d v) s = Some (r, s') ->
    forced_symbols d s' = v /\
    dynamic_lookup d s' = dynamic_lookup d s /\
    call_routines d s' = call_routines d s
}.

(** A further assumption on the host, used only where stated: a call made on
    one library handle changes nothing of what is observed of another. *)
Class HostFrame (H : Host) : Prop := {
  step_other_library c d d' s r s' :
    call_info c = Some d -> d' <> d ->
    host_step c s = Some (r, s') ->
    dynamic_lookup d' s' = dynamic_lookup d' s /\
    forced_symbols d' s' = forced_symbols d' s /\
    call_routines d' s' = call_routines d' s
}.

Section Exec.
Context {H : Host}.

(** What is observed of library [d] is the same in [s1] as in [s]. *)
Definition same_library_view (d : DllInfo_handle) (s s1 : hstate) : Prop :=
  dynamic_lookup d s1 = dynamic_lookup d s /\
  forced_symbols d s1 = forced_symbols d s /\
  call_routines d s1 = call_routines d s.

(** Running a program: the result and the final state, or [None] when a
    host call raised. *)
Fixpoint run {A} (p : prog A) (s : hstate) : option (A * hstate) :=
  match p with
  | Ret a => Some (a, s)
  | Do c k =>
      match host_step c s with
      | None => None
      | Some (r, s') => run (k r) s'
      end
  end.

(** One host call of an execution: the call, the state it was made in, and
    the state it returned in (if it returned). *)
Record event : Type := {
  ev_call : host_call;
  ev_pre : hstate;
  ev_post : option hstate
}.

(** The host calls of an execution, in order, up to and including the first
    one that raises. *)
Fixpoint log {A} (p : prog A) (s : hstate) : list event :=
  match p with
  | Ret _ => []
  | Do c k =>
      match host_step c s with
      | None => [ {| ev_call := c; ev_pre := s; ev_post := None |} ]
      | Some (r, s') =>
          {| ev_call := c; ev_pre := s; ev_post := Some s' |} :: log (k r) s'
      end
  end.

(** The states the host is in after each call that returned. *)
Definition post_states (l : list event) : list hstate := omap ev_post l.

(** Both published routines are registered for [d] in state [s], with the
    handles and arities of the table. *)
Definition both_registered (d : DllInfo_handle) (s : hstate) : Prop :=
  call_routines d s = published callMethods.

End Exec.

(** The host [.Call] dispatch, for given kernel bodies: look the name up among
    the registered routines, compare the number of arguments with the
    registered arity, and call through the handle. *)
Section Dispatch.
Context {H : Host}.
Variable value : Type.
Variable summarize_body : value -> hstate -> option (value * hstate).
Variable rayOLS_body : value -> value -> hstate -> option (value * hstate).

(** Calling through a function pointer with the arguments at hand. *)
Definition call_kernel (k : kernel) (args : list value) (s : hstate)
  : option (value * hstate) :=
  match k, args with
  | summarize, [x] => summarize_body x s
  | rayOLS, [x; y] => rayOLS_body x y s
  | _, _ => None
  end.

(** Modelled from the spec: the host's dispatch of a call by published name
    (host code, absent from the sources): "Invoking C_summarize with one
    argument dispatches to the summarization kernel", "Requesting any name not
    in the descriptor table yields no handle". *)
Definition dotCall (d : DllInfo_handle) (n : string) (args : list value) (s : hstate)
  : option (value * hstate) :=
  match find_entry n (call_routines d s) with
  | None => None
  | Some e =>
      if bool_decide (numArgs e = Z.of_nat (length args))
      then match fun_ e with
           | Some k => call_kernel k args s
           | None => None
           end
      else None
  end.

(** The kernel a call by name reaches, if any. *)
Definition dispatch_target (d : DllInfo_handle) (n : string) (nargs : nat) (s : hstate)
  : option kernel :=
  match find_entry n (call_routines d s) with
  | None => None
  | Some e => if bool_decide (numArgs e = Z.of_nat nargs) then fun_ e else None
  end.

End Dispatch.

End HostSem.

(** ** A reference host *)

(** A model of the host's registration facility as R implements it, used to
    show that the assumptions of [HostSem] can be met and to run the
    initializer on concrete states.  It is not derived from [init.c]. *)
Module RHost.
Import Decls Table HostApi HostSem.

(** The part of the host's per-library record that registration touches. *)
Record DllInfo : Type := {
  handle : bool;                (* has the library an OS handle? *)
  useDynamicSymbols : bool;
  forceSymbols : bool;
  CSymbols : list (string * R_CMethodDef);
  CallSymbols : list (string * R_CallMethodDef);
  FortranSymbols : list (string * R_CMethodDef);
  ExternalSymbols : list (string * R_CallMethodDef)
}.

Fixpoint published_c (t : list R_CMethodDef) : list (string * R_CMethodDef) :=
  match t with
  | [] => []
  | e :: t' =>
      match c_name e with
      | None => []
      | Some n => (n, e) :: published_c t'
      end
  end.

(** The record the host creates when it maps a library. *)
Definition fresh : DllInfo :=
  {| handle := true; useDynamicSymbols := true; forceSymbols := false;
     CSymbols := []; CallSymbols := []; FortranSymbols := [];
     ExternalSymbols := [] |}.

(** Registration: a null handle is an error; the flags are put back to
    their defaults; each category given replaces the one registered before,
    a category passed as [NULL] is left as it was.  Returns 1. *)
Definition registerRoutines (info : DllInfo_handle)
    (cr : option (list R_CMethodDef)) (callr : option (list R_CallMethodDef))
    (fr : option (list R_CMethodDef)) (er : option (list R_CallMethodDef))
    (s : gmap N DllInfo) : option (Z * gmap N DllInfo) :=
  if bool_decide (info = 0%N) then None
  else
    match s !! info with
    | None => None
    | Some d =>
        let d' :=
          {| handle := handle d;
             useDynamicSymbols := handle d;
             forceSymbols := false;
             CSymbols := from_option published_c (CSymbols d) cr;
             CallSymbols := from_option published (CallSymbols d) callr;
             FortranSymbols := from_option published_c (FortranSymbols d) fr;
             ExternalSymbols := from_option published (ExternalSymbols d) er |} in
        Some (1, <[info := d']> s)
    end.

Definition useDynamic (info : DllInfo_handle) (v : bool) (s : gmap N DllInfo)
  : option (bool * gmap N DllInfo) :=
  match s !! info with
  | None => None
  | Some d =>
      Some (useDynamicSymbols d,
            <[info := {| handle := handle d; useDynamicSymbols := v;
                         forceSymbols := forceSymbols d;
                         CSymbols := CSymbols d; CallSymbols := CallSymbols d;
                         FortranSymbols := FortranSymbols d;
                         ExternalSymbols := ExternalSymbols d |}]> s)
  end.

Definition force (info : DllInfo_handle) (v : bool) (s : gmap N DllInfo)
  : option (bool * gmap N DllInfo) :=
  match s !! info with
  | None => None
  | Some d =>
      Some (forceSymbols d,
            <[info := {| handle := handle d;
                         useDynamicSymbols := useDynamicSymbols d;
                         forceSymbols := v;
                         CSymbols := CSymbols d; CallSymbols := CallSymbols d;
                         FortranSymbols := FortranSymbols d;
                         ExternalSymbols := ExternalSymbols d |}]> s)
  end.

Definition step (c : host_call) : gmap N DllInfo -> option (ret_ty c * gmap N DllInfo) :=
  match c with
  | R_registerRoutines info cr callr fr er => registerRoutines info cr callr fr er
  | R_useDynamicSymbols info v => useDynamic info v
  | R_forceSymbols info v => force info v
  | Rf_error _ => fun _ => None
  end.

#[global] Instance R_host : Host := {|
  hstate := gmap N DllInfo;
  host_step := step;
  dynamic_lookup d s := from_option useDynamicSymbols false (s !! d);
  forced_symbols d s := from_option forceSymbols false (s !! d);
  call_routines d s := from_option CallSymbols [] (s !! d)
|}.

(** A host that has just mapped one library, at address 1. *)
Definition just_mapped : gmap N DllInfo := {[ 1%N := fresh ]}.

(** The same host once the routines of [callMethods] are registered for that
    library, name lookup is off and handles are forced. *)
Definition initialized : gmap N DllInfo :=
  {[ 1%N := {| handle := true; useDynamicSymbols := false; forceSymbols := true;
               CSymbols := []; CallSymbols := published callMethods;
               FortranSymbols := []; ExternalSymbols := [] |} ]}.

(** A host with a second library, at address 2, that registered a routine
    of its own under a name of this table and keeps lookup by name on. *)
Definition two_mapped : gmap N DllInfo :=
  <[ 2%N := {| handle := true; useDynamicSymbols := true; forceSymbols := false;
               CSymbols := [];
               CallSymbols :=
                 [("C_summarize",
                   {| name := Some "C_summarize"; fun_ := Some rayOLS; numArgs := 2 |})];
               FortranSymbols := []; ExternalSymbols := [] |} ]> just_mapped.

(** A host with no library at all: every handle dangles. *)
Definition nothing_mapped : gmap N DllInfo := ∅.

End RHost.

(** ** What the claims are compared with *)

Module Expected.
Import Decls Table HostApi HostSem.

(** The registration call of the initializer. *)
Definition registration (d : DllInfo_handle) : host_call :=
  R_registerRoutines d None (Some callMethods) None None.

(** The three host calls, in the order of the body. *)
Definition script (d : DllInfo_handle) : list host_call :=
  [registration d; R_useDynamicSymbols d false; R_forceSymbols d true].

(** The two published (name, arity) pairs. *)
Definition published_pairs : list (option string * Z) :=
  [(Some "C_summarize", 1); (Some "C_rayOLS", 2)].

(** The public name that goes with a kernel: its C identifier after the
    prefix [C_]. *)
Definition public_name (k : kernel) : string := "C_" +:+ fd_name (kernel_decl k).

(** The descriptor that goes with a kernel: that name, the kernel's address,
    and the number of parameters of its declaration. *)
Definition descriptor_of (k : kernel) : R_CallMethodDef :=
  {| name := Some (public_name k); fun_ := Some k; numArgs := kernel_arity k |}.

(** The registration calls among a list of host calls, with the four category
    arguments of each. *)
Definition registrations (l : list host_call)
  : list (DllInfo_handle * option (list R_CMethodDef) * option (list R_CallMethodDef)
          * option (list R_CMethodDef) * option (list R_CallMethodDef)) :=
  omap (fun c => match c with
                 | R_registerRoutines d cr callr fr er => Some (d, cr, callr, fr, er)
                 | _ => None
                 end) l.

End Expected.

Import Decls Table HostApi HostSem Expected.

(** * Lemmas *)

(** ** The table *)

Lemma published_callMethods :
  published callMethods =
    [ ("C_summarize", {| name := Some "C_summarize"; fun_ := Some summarize; numArgs := 1 |});
      ("C_rayOLS", {| name := Some "C_rayOLS"; fun_ := Some rayOLS; numArgs := 2 |}) ].
Proof. reflexivity. Qed.

Lemma find_entry_callMethods (n : string) :
  find_entry n (published callMethods) =
    if bool_decide ("C_summarize" = n)
    then Some {| name := Some "C_summarize"; fun_ := Some summarize; numArgs := 1 |}
    else if bool_decide ("C_rayOLS" = n)
         then Some {| name := Some "C_rayOLS"; fun_ := Some rayOLS; numArgs := 2 |}
         else None.
Proof. reflexivity. Qed.

Lemma lookup_handle_published (n : string) :
  is_Some (lookup_handle n (published callMethods)) <->
  n = "C_summarize" \/ n = "C_rayOLS".
Proof.
  unfold lookup_handle. rewrite find_entry_callMethods.
  repeat case_bool_decide; subst; simpl; split.
  - auto.
  - intros _. by eexists.
  - auto.
  - intros _. by eexists.
  - intros [k Hk]. discriminate.
  - intros [?|?]; congruence.
Qed.

(** ** Executions of the initializer *)

Lemma R_init_BGData_body (d : DllInfo_handle) :
  R_init_BGData d =
    Do (registration d) (fun _ =>
    Do (R_useDynamicSymbols d false) (fun _ =>
    Do (R_forceSymbols d true) (fun _ => Ret tt))).
Proof. reflexivity. Qed.

Section Executions.
Context {H : Host}.

(** A run that returns went through the three calls, each of which
    returned. *)
Lemma run_init_Some (d : DllInfo_handle) (s s' : hstate) (u : unit) :
  run (R_init_BGData d) s = Some (u, s') ->
  exists r1 s1 r2 s2 r3,
    host_step (registration d) s = Some (r1, s1) /\
    host_step (R_useDynamicSymbols d false) s1 = Some (r2, s2) /\
    host_step (R_forceSymbols d true) s2 = Some (r3, s') /\
    log (R_init_BGData d) s =
      [ {| ev_call := registration d; ev_pre := s; ev_post := Some s1 |};
        {| ev_call := R_useDynamicSymbols d false; ev_pre := s1; ev_post := Some s2 |};
        {| ev_call := R_forceSymbols d true; ev_pre := s2; ev_post := Some s' |} ].
Proof.
  rewrite R_init_BGData_body. simpl.
  destruct (host_step (registration d) s) as [[r1 s1]|] eqn:E1; [|discriminate].
  destruct (host_step (R_useDynamicSymbols d false) s1) as [[r2 s2]|] eqn:E2; [|discriminate].
  destruct (host_step (R_forceSymbols d true) s2) as [[r3 s3]|] eqn:E3; [|discriminate].
  intros [= _ <-]. by exists r1, s1, r2, s2, r3.
Qed.

(** The calls of any execution, returned or not, are an initial part of the
    script, and never empty. *)
Lemma log_init_calls (d : DllInfo_handle) (s : hstate) :
  exists rest, script d = (ev_call <$> log (R_init_BGData d) s) ++ rest /\
               (ev_call <$> log (R_init_BGData d) s) !! 0%nat = Some (registration d).
Proof.
  rewrite R_init_BGData_body. simpl.
  destruct (host_step (registration d) s) as [[r1 s1]|]; simpl;
    [|by eexists].
  destruct (host_step (R_useDynamicSymbols d false) s1) as [[r2 s2]|]; simpl;
    [|by eexists].
  destruct (host_step (R_forceSymbols d true) s2) as [[r3 s3]|]; simpl;
    by eexists.
Qed.

(** The registration calls of any execution: one, with the table in the
    second category. *)
Lemma log_init_registrations (d : DllInfo_handle) (s : hstate) :
  registrations (ev_call <$> log (R_init_BGData d) s) =
    [(d, None, Some callMethods, None, None)].
Proof.
  rewrite R_init_BGData_body. simpl.
  destruct (host_step (registration d) s) as [[r1 s1]|]; [|reflexivity]. simpl.
  destruct (host_step (R_useDynamicSymbols d false) s1) as [[r2 s2]|]; [|reflexivity]. simpl.
  destruct (host_step (R_forceSymbols d true) s2) as [[r3 s3]|]; reflexivity.
Qed.

(** The call that disables lookup by name is made in a state where the
    routines are registered. *)
Lemma log_init_registered_before `{!HostLaws H} (d : DllInfo_handle) (s : hstate) :
  Forall (fun ev => ev_call ev = R_useDynamicSymbols d false ->
                    both_registered d (ev_pre ev)) (log (R_init_BGData d) s).
Proof.
  rewrite R_init_BGData_body. simpl.
  destruct (host_step (registration d) s) as [[r1 s1]|] eqn:E1; simpl;
    [|by repeat constructor].
  pose proof (register_call_routines _ _ _ _ _ _ _ _ E1) as R1.
  constructor; [discriminate|].
  destruct (host_step (R_useDynamicSymbols d false) s1) as [[r2 s2]|] eqn:E2; simpl;
    [|by repeat constructor].
  constructor; [done|].
  destruct (host_step (R_forceSymbols d true) s2) as [[r3 s3]|] eqn:E3; simpl;
    by repeat constructor.
Qed.

(** Under the host's laws the routines are registered from the return of the
    first call on. *)
Lemma log_init_registered `{!HostLaws H} (d : DllInfo_handle) (s : hstate) :
  Forall (both_registered d) (post_states (log (R_init_BGData d) s)).
Proof.
  rewrite R_init_BGData_body. unfold post_states, both_registered. simpl.
  destruct (host_step (registration d) s) as [[r1 s1]|] eqn:E1; simpl;
    [|constructor].
  pose proof (register_call_routines _ _ _ _ _ _ _ _ E1) as R1.
  constructor; [exact R1|].
  destruct (host_step (R_useDynamicSymbols d false) s1) as [[r2 s2]|] eqn:E2; simpl;
    [|constructor].
  destruct (useDynamicSymbols_sets _ _ _ _ _ E2) as [_ R2].
  constructor; [rewrite R2; exact R1|].
  destruct (host_step (R_forceSymbols d true) s2) as [[r3 s3]|] eqn:E3; simpl;
    [|constructor].
  destruct (forceSymbols_sets _ _ _ _ _ E3) as (_ & _ & R3).
  constructor; [rewrite R3, R2; exact R1|constructor].
Qed.

(** The state a returned run ends in. *)
Lemma run_init_final `{!HostLaws H} (d : DllInfo_handle) (s s' : hstate) (u : unit) :
  run (R_init_BGData d) s = Some (u, s') ->
  dynamic_lookup d s' = false /\ forced_symbols d s' = true /\ both_registered d s'.
Proof.
  intros Hrun. destruct (run_init_Some _ _ _ _ Hrun)
    as (r1 & s1 & r2 & s2 & r3 & E1 & E2 & E3 & _).
  pose proof (register_call_routines _ _ _ _ _ _ _ _ E1) as R1.
  destruct (useDynamicSymbols_sets _ _ _ _ _ E2) as [D2 R2].
  destruct (forceSymbols_sets _ _ _ _ _ E3) as (F3 & D3 & R3).
  unfold both_registered. repeat split; congruence.
Qed.

End Executions.

(** ** The reference host meets the laws *)

#[global] Instance R_host_laws : HostLaws RHost.R_host.
Proof.
  split.
  - intros d c t f e s r s'. simpl in *. unfold RHost.registerRoutines.
    case_bool_decide; [discriminate|].
    destruct (s !! d) as [i|] eqn:E; [|discriminate].
    intros [= _ <-]. by rewrite lookup_insert_eq.
  - intros d v s r s'. simpl in *. unfold RHost.useDynamic.
    destruct (s !! d) as [i|] eqn:E; [|discriminate].
    intros [= _ <-]. by rewrite lookup_insert_eq.
  - intros d v s r s'. simpl in *. unfold RHost.force.
    destruct (s !! d) as [i|] eqn:E; [|discriminate].
    intros [= _ <-]. by rewrite lookup_insert_eq.
Qed.


(** ** A concrete load on the reference host *)

(** The reference host after the initializer ran on the library mapped at
    address 1. *)
Lemma R_host_initialized :
  run (R_init_BGData 1%N) RHost.just_mapped =
    Some (tt, RHost.initialized).
Proof. reflexivity. Qed.

(** On the reference host a null or dangling handle makes the registration
    call raise. *)
Lemma R_host_null_handle :
  run (R_init_BGData 0%N) RHost.just_mapped = None /\
  run (R_init_BGData 1%N) RHost.nothing_mapped = None.
Proof. split; reflexivity. Qed.

(** On the reference host the order of the calls matters: registration puts
    both flags back to their defaults, so the same three calls with the
    registration last leave lookup by name enabled and handles not forced. *)
Example R_host_registration_last :
  run (call (R_useDynamicSymbols 1%N false) ;;
       call (R_forceSymbols 1%N true) ;;
       call (registration 1%N) ;;
       mret tt) RHost.just_mapped =
    Some (tt, {[ 1%N := {| RHost.handle := true;
                           RHost.useDynamicSymbols := true;
                           RHost.forceSymbols := false;
                           RHost.CSymbols := [];
                           RHost.CallSymbols := published callMethods;
                           RHost.FortranSymbols := [];
                           RHost.ExternalSymbols := [] |} ]}).
Proof. reflexivity. Qed.

(** * The claims *)

(** The table alone: every entry other than the sentinel has one of the two
    published (name, arity) pairs, both pairs occur, the entries other than
    the sentinel carry exactly these two pairs, and a reader of the table
    sees the two names, with arities 1 and 2. *)
Lemma callMethods_two_pairs :
  Forall (fun e => e = sentinel \/ (name e, numArgs e) ∈ published_pairs) callMethods /\
  Forall (fun p => Exists (fun e => e <> sentinel /\ (name e, numArgs e) = p) callMethods)
         published_pairs /\
  signatures callMethods = published_pairs /\
  (published callMethods).*1 = ["C_summarize"; "C_rayOLS"] /\
  lookup_arity "C_summarize" (published callMethods) = Some 1 /\
  lookup_arity "C_rayOLS" (published callMethods) = Some 2.
Proof.
  split; [|split; [|by repeat split]].
  - unfold callMethods. repeat apply Forall_cons_2; [right; set_solver ..| by left |constructor].
  - unfold published_pairs. repeat apply Forall_cons_2; [| |constructor].
    + apply Exists_cons_hd. by split.
    + apply Exists_cons_tl, Exists_cons_hd. by split.
Qed.

(** C1: the shim publishes exactly two callables, [C_summarize] with arity 1
    and [C_rayOLS] with arity 2.  In the table, every entry other than the
    sentinel has one of these two (name, arity) pairs and both pairs occur.
    And once the initializer has returned on a host that meets the laws of
    the registration facility, the routines the host holds for the library
    are exactly these two, in this order, and the arity the host reports is
    1 for [C_summarize] and 2 for [C_rayOLS]. *)
Theorem init_publishes_two `{H : Host} `{!HostLaws H}
    (d : DllInfo_handle) (s s' : hstate) (u : unit) :
  run (R_init_BGData d) s = Some (u, s') ->
  Forall (fun e => e = sentinel \/ (name e, numArgs e) ∈ published_pairs) callMethods /\
  Forall (fun p => Exists (fun e => e <> sentinel /\ (name e, numArgs e) = p) callMethods)
         published_pairs /\
  signatures callMethods = published_pairs /\
  (call_routines d s').*1 = ["C_summarize"; "C_rayOLS"] /\
  (fun p => (Some p.1, numArgs p.2)) <$> call_routines d s' = published_pairs /\
  lookup_arity "C_summarize" (call_routines d s') = Some 1 /\
  lookup_arity "C_rayOLS" (call_routines d s') = Some 2.
Proof.
  intros Hrun. destruct (run_init_final _ _ _ _ Hrun) as (_ & _ & R).
  unfold both_registered in R.
  destruct callMethods_two_pairs as (T1 & T2 & T3 & _).
  split; [exact T1|]. split; [exact T2|]. split; [exact T3|].
  rewrite R. by repeat split.
Qed.

Lemma init_publishes_two_witness :
  HostLaws RHost.R_host /\
  run (R_init_BGData 1%N) RHost.just_mapped = Some (tt, RHost.initialized) /\
  Forall (fun e => e = sentinel \/ (name e, numArgs e) ∈ published_pairs) callMethods /\
  Forall (fun p => Exists (fun e => e <> sentinel /\ (name e, numArgs e) = p) callMethods)
         published_pairs /\
  signatures callMethods = published_pairs /\
  (call_routines 1%N RHost.initialized).*1 = ["C_summarize"; "C_rayOLS"] /\
  (fun p => (Some p.1, numArgs p.2)) <$> call_routines 1%N RHost.initialized
    = published_pairs /\
  lookup_arity "C_summarize" (call_routines 1%N RHost.initialized) = Some 1 /\
  lookup_arity "C_rayOLS" (call_routines 1%N RHost.initialized) = Some 2.
Proof.
  split; [exact R_host_laws|].
  split; [reflexivity|].
  apply (@init_publishes_two RHost.R_host R_host_laws
           1%N RHost.just_mapped RHost.initialized tt).
  reflexivity.
Defined.

(** C4: the invariants of the table.  The public names are pairwise distinct;
    every entry other than the sentinel has a non-null handle; the arity of
    every entry with a handle is the number of parameters in the declaration
    of the kernel the handle points to (1 for [summarize], 2 for [rayOLS]);
    the sentinel [{NULL, NULL, 0}] occurs exactly once and is the last entry,
    and no other entry has a null name. *)
Theorem callMethods_invariants :
  NoDup (names callMethods) /\
  Forall (fun e => e = sentinel \/ is_Some (fun_ e)) callMethods /\
  Forall (fun e => match fun_ e with
                   | Some k => numArgs e = kernel_arity k
                   | None => True
                   end) callMethods /\
  kernel_arity summarize = 1 /\ kernel_arity rayOLS = 2 /\
  last callMethods = Some sentinel /\
  length (filter (fun e => e = sentinel) callMethods) = 1%nat /\
  filter (fun e => name e = None) callMethods = [sentinel].
Proof.
  split; [|split; [|split; [|by repeat split]]].
  - apply (bool_decide_unpack _). by vm_compute.
  - unfold callMethods. repeat apply Forall_cons_2; [right; by eexists ..| by left |constructor].
  - unfold callMethods. by repeat apply Forall_cons_2.
Qed.

(** C9: the only function the unit exports is the initializer; it is named
    exactly [R_init_BGData], which is the name the host's loader builds for
    a package named [BGData] and for no other package; it takes exactly one
    argument, of type [DllInfo *], and returns nothing. *)
Theorem initializer_name_and_signature :
  exported = [R_init_BGData_decl] /\
  fd_name R_init_BGData_decl = "R_init_BGData" /\
  init_symbol "BGData" = fd_name R_init_BGData_decl /\
  Forall (fun d => forall p, init_symbol p = fd_name d <-> p = "BGData") exported /\
  fd_params R_init_BGData_decl = [DllInfo_ptr] /\
  fd_ret R_init_BGData_decl = void.
Proof.
  repeat split; try reflexivity.
  repeat constructor.
  - unfold init_symbol. simpl. intros E. by injection E.
  - by intros ->.
Qed.

(** C2: whatever the host and its state, an execution of the initializer
    makes exactly one registration call; in it the table [callMethods] is
    passed as the [.Call] category and the three other categories ([.C],
    [.Fortran], [.External]) are passed as [NULL]. *)
Theorem registration_call_category_only `{H : Host} (d : DllInfo_handle) (s : hstate) :
  registrations (ev_call <$> log (R_init_BGData d) s) =
    [(d, None, Some callMethods, None, None)].
Proof. apply log_init_registrations. Qed.

(** C3: on a host that meets the laws of the registration facility, every
    invocation of the initializer that returns has called
    [R_useDynamicSymbols(dll, FALSE)] and [R_forceSymbols(dll, TRUE)], and
    ends in a state where, for the given handle, lookup by name is disabled
    and lookup through the registered handles is required. *)
Theorem init_sets_lookup_policy `{H : Host} `{!HostLaws H}
    (d : DllInfo_handle) (s s' : hstate) (u : unit) :
  run (R_init_BGData d) s = Some (u, s') ->
  R_useDynamicSymbols d false ∈ (ev_call <$> log (R_init_BGData d) s) /\
  R_forceSymbols d true ∈ (ev_call <$> log (R_init_BGData d) s) /\
  dynamic_lookup d s' = false /\
  forced_symbols d s' = true.
Proof.
  intros Hrun.
  destruct (run_init_final _ _ _ _ Hrun) as (D & F & _).
  destruct (run_init_Some _ _ _ _ Hrun) as (r1 & s1 & r2 & s2 & r3 & _ & _ & _ & ->).
  simpl. repeat split; [set_solver| set_solver | exact D | exact F].
Qed.

Lemma init_sets_lookup_policy_witness :
  HostLaws RHost.R_host /\
  run (R_init_BGData 1%N) RHost.just_mapped =
    Some (tt, RHost.initialized) /\
  R_useDynamicSymbols 1%N false ∈
    (ev_call <$> log (R_init_BGData 1%N) RHost.just_mapped) /\
  R_forceSymbols 1%N true ∈
    (ev_call <$> log (R_init_BGData 1%N) RHost.just_mapped) /\
  dynamic_lookup 1%N RHost.initialized = false /\
  forced_symbols 1%N RHost.initialized = true.
Proof.
  split; [exact R_host_laws|].
  split; [reflexivity|].
  apply (@init_sets_lookup_policy RHost.R_host R_host_laws 1%N RHost.just_mapped _ tt).
  reflexivity.
Defined.

(** C5: the handle under the name [C_summarize] is the address of
    [summarize] and the handle under [C_rayOLS] is the address of [rayOLS],
    in the table and, once the initializer has returned on a host that meets
    the laws, among the host's registered routines; from then on a call of
    [C_summarize] with one argument runs the body of [summarize] on it and a
    call of [C_rayOLS] with two arguments runs the body of [rayOLS] on them,
    whatever these bodies are. *)
Theorem dispatch_reaches_kernels `{H : Host} `{!HostLaws H} (value : Type)
    (summarize_body : value -> hstate -> option (value * hstate))
    (rayOLS_body : value -> value -> hstate -> option (value * hstate))
    (d : DllInfo_handle) (s s' : hstate) (u : unit) :
  run (R_init_BGData d) s = Some (u, s') ->
  lookup_handle "C_summarize" (published callMethods) = Some summarize /\
  lookup_handle "C_rayOLS" (published callMethods) = Some rayOLS /\
  lookup_handle "C_summarize" (call_routines d s') = Some summarize /\
  lookup_handle "C_rayOLS" (call_routines d s') = Some rayOLS /\
  dispatch_target d "C_summarize" 1 s' = Some summarize /\
  dispatch_target d "C_rayOLS" 2 s' = Some rayOLS /\
  (forall x, dotCall value summarize_body rayOLS_body d "C_summarize" [x] s'
             = summarize_body x s') /\
  (forall x y, dotCall value summarize_body rayOLS_body d "C_rayOLS" [x; y] s'
               = rayOLS_body x y s').
Proof.
  intros Hrun. destruct (run_init_final _ _ _ _ Hrun) as (_ & _ & R).
  unfold both_registered in R.
  repeat split; intros; unfold dispatch_target, dotCall; rewrite R; reflexivity.
Qed.

Lemma dispatch_reaches_kernels_witness :
  HostLaws RHost.R_host /\
  run (R_init_BGData 1%N) RHost.just_mapped = Some (tt, RHost.initialized) /\
  lookup_handle "C_summarize" (published callMethods) = Some summarize /\
  lookup_handle "C_rayOLS" (published callMethods) = Some rayOLS /\
  lookup_handle "C_summarize" (call_routines 1%N RHost.initialized) = Some summarize /\
  lookup_handle "C_rayOLS" (call_routines 1%N RHost.initialized) = Some rayOLS /\
  dispatch_target 1%N "C_summarize" 1 RHost.initialized = Some summarize /\
  dispatch_target 1%N "C_rayOLS" 2 RHost.initialized = Some rayOLS /\
  (forall x : Z,
     dotCall Z (fun x s => Some (x + 1, s)) (fun x y s => Some (x * y, s))
       1%N "C_summarize" [x] RHost.initialized = Some (x + 1, RHost.initialized)) /\
  (forall x y : Z,
     dotCall Z (fun x s => Some (x + 1, s)) (fun x y s => Some (x * y, s))
       1%N "C_rayOLS" [x; y] RHost.initialized = Some (x * y, RHost.initialized)).
Proof.
  split; [exact R_host_laws|].
  split; [reflexivity|].
  apply (@dispatch_reaches_kernels RHost.R_host R_host_laws Z
           (fun x s => Some (x + 1, s)) (fun x y s => Some (x * y, s))
           1%N RHost.just_mapped RHost.initialized tt).
  reflexivity.
Defined.

(** C6: a lookup by name in the table yields a non-null handle exactly when
    the name is [C_summarize] or [C_rayOLS], and so does a lookup among the
    host's registered routines once the initializer has returned on a host
    that meets the laws; a name that is not in the table, such as
    [C_internal_helper], yields no handle. *)
Theorem lookup_iff_published `{H : Host} `{!HostLaws H}
    (d : DllInfo_handle) (s s' : hstate) (u : unit) :
  run (R_init_BGData d) s = Some (u, s') ->
  (forall n, is_Some (lookup_handle n (published callMethods)) <->
             n = "C_summarize" \/ n = "C_rayOLS") /\
  (forall n, is_Some (lookup_handle n (call_routines d s')) <->
             n = "C_summarize" \/ n = "C_rayOLS") /\
  (forall n, n ∉ names callMethods -> lookup_handle n (call_routines d s') = None) /\
  lookup_handle "C_internal_helper" (call_routines d s') = None.
Proof.
  intros Hrun. destruct (run_init_final _ _ _ _ Hrun) as (_ & _ & R).
  unfold both_registered in R.
  split; [exact lookup_handle_published|].
  split; [intros n; rewrite R; apply lookup_handle_published|].
  split; [|rewrite R; reflexivity].
  intros n Hn. rewrite R. apply eq_None_not_Some. intros Hs.
  apply lookup_handle_published in Hs. apply Hn.
  destruct Hs as [-> | ->]; simpl; set_solver.
Qed.

Lemma lookup_iff_published_witness :
  HostLaws RHost.R_host /\
  run (R_init_BGData 1%N) RHost.just_mapped = Some (tt, RHost.initialized) /\
  (forall n, is_Some (lookup_handle n (published callMethods)) <->
             n = "C_summarize" \/ n = "C_rayOLS") /\
  (forall n, is_Some (lookup_handle n (call_routines 1%N RHost.initialized)) <->
             n = "C_summarize" \/ n = "C_rayOLS") /\
  (forall n, n ∉ names callMethods ->
             lookup_handle n (call_routines 1%N RHost.initialized) = None) /\
  lookup_handle "C_internal_helper" (call_routines 1%N RHost.initialized) = None.
Proof.
  split; [exact R_host_laws|].
  split; [reflexivity|].
  apply (@lookup_iff_published RHost.R_host R_host_laws
           1%N RHost.just_mapped RHost.initialized tt).
  reflexivity.
Defined.

(** ** Failures of an execution *)

Section Failures.
Context {H : Host}.

(** A program fails exactly when one of its host calls did not return. *)
Lemma run_None_iff {A} (p : prog A) (s : hstate) :
  run p s = None <-> Exists (fun ev => ev_post ev = None) (log p s).
Proof.
  revert s. induction p as [a | c k IH]; intros s; simpl.
  - split; [discriminate | by intros ?%Exists_nil].
  - destruct (host_step c s) as [[r s1]|] eqn:E.
    + rewrite IH, Exists_cons. simpl. split; [by right | by intros [? | ?]].
    + split; [intros _; by apply Exists_cons_hd | done].
Qed.

(** Every event of a log records the host's own answer: a call without
    post-state is a call on which the host raised, a call with a post-state
    is one from which the host returned in that state. *)
Lemma log_sound {A} (p : prog A) (s : hstate) :
  Forall (fun ev => match ev_post ev with
                    | None => host_step (ev_call ev) (ev_pre ev) = None
                    | Some s1 => exists r, host_step (ev_call ev) (ev_pre ev) = Some (r, s1)
                    end) (log p s).
Proof.
  revert s. induction p as [a | c k IH]; intros s; simpl.
  - constructor.
  - destruct (host_step c s) as [[r s1]|] eqn:E.
    + constructor; [by exists r | apply IH].
    + constructor; [done | constructor].
Qed.

End Failures.

(** C7: the initializer has no result other than the unit of a [void]
    function and raises nothing itself.  Whatever the host, its state and the
    handle: every host call of an execution belongs to the registration
    facility (none is a call of [Rf_error]); the execution fails exactly when
    one of these calls raised in the host; and when the host returns from
    the three calls, the initializer returns, with the unit value, in the
    state the host returned in last. *)
Theorem init_raises_nothing_itself `{H : Host} (d : DllInfo_handle) (s : hstate) :
  Forall (fun ev => is_registration_call (ev_call ev) = true)
         (log (R_init_BGData d) s) /\
  (run (R_init_BGData d) s = None <->
   Exists (fun ev => is_registration_call (ev_call ev) = true /\
                     host_step (ev_call ev) (ev_pre ev) = None)
          (log (R_init_BGData d) s)) /\
  (forall r1 s1 r2 s2 r3 s3,
     host_step (registration d) s = Some (r1, s1) ->
     host_step (R_useDynamicSymbols d false) s1 = Some (r2, s2) ->
     host_step (R_forceSymbols d true) s2 = Some (r3, s3) ->
     run (R_init_BGData d) s = Some (tt, s3)).
Proof.
  assert (Hreg : Forall (fun ev => is_registration_call (ev_call ev) = true)
                        (log (R_init_BGData d) s)).
  { destruct (log_init_calls d s) as (rest & Hs & _).
    apply Forall_fmap with (f := ev_call) (P := fun c => is_registration_call c = true).
    assert (Hall : Forall (fun c => is_registration_call c = true) (script d))
      by (by repeat constructor).
    rewrite Hs in Hall. by apply Forall_app in Hall as [? _]. }
  split; [exact Hreg|]. split.
  - rewrite run_None_iff. pose proof (log_sound (R_init_BGData d) s) as Hsound.
    rewrite !Exists_exists. rewrite Forall_forall in Hreg, Hsound.
    split.
    + intros (ev & Hin & Hnone). exists ev.
      specialize (Hsound ev Hin). rewrite Hnone in Hsound. auto.
    + intros (ev & Hin & _ & Hnone). exists ev. split; [done|].
      specialize (Hsound ev Hin).
      destruct (ev_post ev) as [s1|]; [|done].
      destruct Hsound as [r Hr]. congruence.
  - intros r1 s1 r2 s2 r3 s3 E1 E2 E3.
    rewrite R_init_BGData_body. simpl. by rewrite E1, E2, E3.
Qed.

(** C10: the three host calls are made in the order of the body.  Whatever
    the host state, the calls of an execution are an initial part of
    [registration; R_useDynamicSymbols FALSE; R_forceSymbols TRUE] that starts
    with the registration, and all three when the initializer returns.  On a
    host that meets the laws the two routines are registered in every state
    from the return of the registration call on: in particular in the state
    in which lookup by name gets disabled, and in every later state with
    lookup by name disabled; and when the state the initializer is entered in
    is not one with lookup by name disabled and the routines unregistered, no
    state of the execution is. *)
Theorem init_call_order `{H : Host} `{!HostLaws H} (d : DllInfo_handle) (s : hstate) :
  (ev_call <$> log (R_init_BGData d) s) `prefix_of` script d /\
  (ev_call <$> log (R_init_BGData d) s) !! 0%nat = Some (registration d) /\
  (is_Some (run (R_init_BGData d) s) ->
   ev_call <$> log (R_init_BGData d) s = script d) /\
  Forall (both_registered d) (post_states (log (R_init_BGData d) s)) /\
  Forall (fun ev => ev_call ev = R_useDynamicSymbols d false ->
                    both_registered d (ev_pre ev)) (log (R_init_BGData d) s) /\
  Forall (fun s1 => dynamic_lookup d s1 = false -> both_registered d s1)
         (post_states (log (R_init_BGData d) s)) /\
  ((dynamic_lookup d s = false -> both_registered d s) ->
   Forall (fun s1 => dynamic_lookup d s1 = false -> both_registered d s1)
          (s :: post_states (log (R_init_BGData d) s))).
Proof.
  destruct (log_init_calls d s) as (rest & Hs & H0).
  split; [by exists rest|]. split; [exact H0|]. split.
  { intros [[u s'] Hrun].
    destruct (run_init_Some _ _ _ _ Hrun) as (r1 & s1 & r2 & s2 & r3 & _ & _ & _ & ->).
    reflexivity. }
  split; [apply log_init_registered|].
  split; [apply log_init_registered_before|].
  assert (Hpost : Forall (fun s1 => dynamic_lookup d s1 = false -> both_registered d s1)
                         (post_states (log (R_init_BGData d) s)))
    by (eapply Forall_impl; [apply log_init_registered|]; auto).
  split; [exact Hpost|].
  intros Hentry. by constructor.
Qed.

Lemma init_call_order_witness :
  HostLaws RHost.R_host /\
  (ev_call <$> log (R_init_BGData 1%N) RHost.just_mapped) `prefix_of` script 1%N /\
  (ev_call <$> log (R_init_BGData 1%N) RHost.just_mapped) !! 0%nat
    = Some (registration 1%N) /\
  (is_Some (run (R_init_BGData 1%N) RHost.just_mapped) ->
   ev_call <$> log (R_init_BGData 1%N) RHost.just_mapped = script 1%N) /\
  Forall (both_registered 1%N) (post_states (log (R_init_BGData 1%N) RHost.just_mapped)) /\
  Forall (fun ev => ev_call ev = R_useDynamicSymbols 1%N false ->
                    both_registered 1%N (ev_pre ev))
         (log (R_init_BGData 1%N) RHost.just_mapped) /\
  Forall (fun s1 => dynamic_lookup 1%N s1 = false -> both_registered 1%N s1)
         (post_states (log (R_init_BGData 1%N) RHost.just_mapped)) /\
  ((dynamic_lookup 1%N RHost.just_mapped = false ->
    both_registered 1%N RHost.just_mapped) ->
   Forall (fun s1 => dynamic_lookup 1%N s1 = false -> both_registered 1%N s1)
          (RHost.just_mapped :: post_states (log (R_init_BGData 1%N) RHost.just_mapped))).
Proof.
  split; [exact R_host_laws|].
  apply (@init_call_order RHost.R_host R_host_laws 1%N RHost.just_mapped).
Defined.

(** * Further properties of the unit *)

(** ** Declared kernels and published descriptors *)

(** X1: every kernel that [init.c] declares is published exactly once: the
    table has exactly one entry with its address, that entry carries the
    name [C_] followed by the kernel's C identifier and the number of
    parameters of its declaration, a lookup of that name finds that entry,
    and no other name leads to the kernel. *)
Theorem declared_kernels_published_once (k : kernel) :
  filter (fun e => fun_ e = Some k) callMethods = [descriptor_of k] /\
  find_entry (public_name k) (published callMethods) = Some (descriptor_of k) /\
  (forall n, lookup_handle n (published callMethods) = Some k <-> n = public_name k).
Proof.
  split; [by destruct k|]. split; [by destruct k|].
  intros n. unfold lookup_handle. rewrite find_entry_callMethods.
  destruct k; repeat case_bool_decide; subst; simpl; split;
    solve [done | discriminate | intros [= ]; done | intros ?; exfalso; auto
          | intros ->; exfalso; auto].
Qed.

(** ** A registration that raises *)

(** X2: when the host raises on the registration call (as it does on a
    null handle), the initializer fails, and that call is the only host call
    it has made: neither lookup flag of the library is touched. *)
Theorem failed_registration_sets_no_flag `{H : Host} (d : DllInfo_handle) (s : hstate) :
  host_step (registration d) s = None ->
  run (R_init_BGData d) s = None /\
  log (R_init_BGData d) s =
    [ {| ev_call := registration d; ev_pre := s; ev_post := None |} ] /\
  Forall (fun c => forall v, c <> R_useDynamicSymbols d v /\ c <> R_forceSymbols d v)
         (ev_call <$> log (R_init_BGData d) s).
Proof.
  intros E. rewrite R_init_BGData_body. simpl. rewrite E. simpl.
  repeat split; repeat constructor; discriminate.
Qed.

Lemma failed_registration_sets_no_flag_witness :
  host_step (registration 0%N) RHost.just_mapped = None /\
  run (R_init_BGData 0%N) RHost.just_mapped = None /\
  log (R_init_BGData 0%N) RHost.just_mapped =
    [ {| ev_call := registration 0%N; ev_pre := RHost.just_mapped; ev_post := None |} ] /\
  Forall (fun c => forall v, c <> R_useDynamicSymbols 0%N v /\ c <> R_forceSymbols 0%N v)
         (ev_call <$> log (R_init_BGData 0%N) RHost.just_mapped).
Proof.
  split; [reflexivity|].
  apply (@failed_registration_sets_no_flag RHost.R_host 0%N RHost.just_mapped).
  reflexivity.
Defined.

(** ** Other libraries *)

Section OtherLibraries.
Context {H : Host}.

Lemma same_library_view_refl (d : DllInfo_handle) (s : hstate) :
  same_library_view d s s.
Proof. by repeat split. Qed.

Lemma same_library_view_trans (d : DllInfo_handle) (s s1 s2 : hstate) :
  same_library_view d s s1 -> same_library_view d s1 s2 -> same_library_view d s s2.
Proof.
  unfold same_library_view. intros (D1 & F1 & R1) (D2 & F2 & R2).
  repeat split; congruence.
Qed.

(** One call on [d] that returns, seen from another library. *)
Lemma step_same_library_view `{!HostFrame H} (c : host_call) (d d' : DllInfo_handle)
    (s s' : hstate) (r : ret_ty c) :
  call_info c = Some d -> d' <> d -> host_step c s = Some (r, s') ->
  same_library_view d' s s'.
Proof. intros Hc Hd E. exact (step_other_library c d d' s r s' Hc Hd E). Qed.

End OtherLibraries.

#[global] Instance R_host_frame : HostFrame RHost.R_host.
Proof.
  split. intros c d d' s r s' Hc Hd.
  destruct c as [info cr callr fr er | info v | info v | msg];
    simpl in *; [| | |discriminate]; injection Hc as ->.
  - unfold RHost.registerRoutines. case_bool_decide; [discriminate|].
    destruct (s !! d) as [i|] eqn:E; [|discriminate].
    intros [= _ <-]. by rewrite lookup_insert_ne.
  - unfold RHost.useDynamic.
    destruct (s !! d) as [i|] eqn:E; [|discriminate].
    intros [= _ <-]. by rewrite lookup_insert_ne.
  - unfold RHost.force.
    destruct (s !! d) as [i|] eqn:E; [|discriminate].
    intros [= _ <-]. by rewrite lookup_insert_ne.
Qed.

(** X3: the initializer acts on the library it is given and on no other.  On
    a host where a call on one handle leaves what is observed of another
    handle alone, the lookup flags and the registered routines of every
    other library are, after each host call of an execution and at its
    return, what they were when the initializer was entered. *)
Theorem init_leaves_other_libraries `{H : Host} `{!HostFrame H}
    (d d' : DllInfo_handle) (s : hstate) :
  d' <> d ->
  Forall (same_library_view d' s) (post_states (log (R_init_BGData d) s)) /\
  (forall u s', run (R_init_BGData d) s = Some (u, s') -> same_library_view d' s s').
Proof.
  intros Hd.
  assert (Hlog : Forall (same_library_view d' s)
                        (post_states (log (R_init_BGData d) s))).
  { rewrite R_init_BGData_body. unfold post_states. simpl.
    destruct (host_step (registration d) s) as [[r1 s1]|] eqn:E1; simpl;
      [|constructor].
    pose proof (step_same_library_view (registration d) d d' s s1 r1 eq_refl Hd E1) as V1.
    constructor; [exact V1|].
    destruct (host_step (R_useDynamicSymbols d false) s1) as [[r2 s2]|] eqn:E2; simpl;
      [|constructor].
    pose proof (step_same_library_view (R_useDynamicSymbols d false) d d' s1 s2 r2
                  eq_refl Hd E2) as V2.
    pose proof (same_library_view_trans _ _ _ _ V1 V2) as V12.
    constructor; [exact V12|].
    destruct (host_step (R_forceSymbols d true) s2) as [[r3 s3]|] eqn:E3; simpl;
      [|constructor].
    pose proof (step_same_library_view (R_forceSymbols d true) d d' s2 s3 r3
                  eq_refl Hd E3) as V3.
    constructor; [exact (same_library_view_trans _ _ _ _ V12 V3)|constructor]. }
  split; [exact Hlog|].
  intros u s' Hrun.
  destruct (run_init_Some _ _ _ _ Hrun) as (r1 & s1 & r2 & s2 & r3 & _ & _ & _ & Hl).
  rewrite Hl in Hlog. unfold post_states in Hlog. simpl in Hlog.
  rewrite !Forall_cons in Hlog. tauto.
Qed.

Lemma init_leaves_other_libraries_witness :
  HostFrame RHost.R_host /\
  2%N <> 1%N /\
  Forall (same_library_view 2%N RHost.two_mapped)
         (post_states (log (R_init_BGData 1%N) RHost.two_mapped)) /\
  (forall u s', run (R_init_BGData 1%N) RHost.two_mapped = Some (u, s') ->
                same_library_view 2%N RHost.two_mapped s').
Proof.
  split; [exact R_host_frame|].
  split; [discriminate|].
  apply (@init_leaves_other_libraries RHost.R_host R_host_frame 1%N 2%N RHost.two_mapped).
  discriminate.
Defined.

(** On the reference host, with the second library mapped: the initializer
    of the first returns, and the name [C_summarize] still resolves, for the
    second library, to the routine that library registered. *)
Example R_host_two_libraries :
  exists s', run (R_init_BGData 1%N) RHost.two_mapped = Some (tt, s') /\
             lookup_handle "C_summarize" (call_routines 1%N s') = Some summarize /\
             lookup_handle "C_summarize" (call_routines 2%N s') = Some rayOLS /\
             dynamic_lookup 1%N s' = false /\ dynamic_lookup 2%N s' = true.
Proof. eexists. split; [reflexivity|]. by vm_compute. Qed.

(** ** Running the initializer again *)

(** Sequencing two programs runs the second in the state the first returned
    in. *)
Lemma run_bind `{H : Host} {A B} (p : prog A) (f : A -> prog B) (s : hstate) :
  run (p ≫= f) s =
    match run p s with
    | Some (a, s1) => run (f a) s1
    | None => None
    end.
Proof.
  revert s. induction p as [a | c k IH]; intros s; [reflexivity|].
  change (run (Do c k ≫= f) s) with (run (Do c (fun r => k r ≫= f)) s).
  simpl. destruct (host_step c s) as [[r s1]|]; [apply IH | reflexivity].
Qed.

(** X4: initializing twice is, for the library, the same as initializing
    once.  On a host that meets the laws, when two runs of the initializer in
    a row return, the first had returned too, and the second leaves the
    lookup flags and the registered routines of the library as the first set
    them. *)
Theorem init_twice_same_view `{H : Host} `{!HostLaws H}
    (d : DllInfo_handle) (s s2 : hstate) (u : unit) :
  run (R_init_BGData d ;; R_init_BGData d) s = Some (u, s2) ->
  exists s1, run (R_init_BGData d) s = Some (tt, s1) /\
             run (R_init_BGData d) s1 = Some (tt, s2) /\
             same_library_view d s1 s2.
Proof.
  rewrite run_bind.
  destruct (run (R_init_BGData d) s) as [[[] s1]|] eqn:E1; [|discriminate].
  intros E2. exists s1. destruct u.
  destruct (run_init_final _ _ _ _ E1) as (D1 & F1 & R1).
  destruct (run_init_final _ _ _ _ E2) as (D2 & F2 & R2).
  unfold both_registered in *. repeat split; congruence.
Qed.

Lemma init_twice_same_view_witness :
  HostLaws RHost.R_host /\
  run (R_init_BGData 1%N ;; R_init_BGData 1%N) RHost.just_mapped
    = Some (tt, RHost.initialized) /\
  exists s1, run (R_init_BGData 1%N) RHost.just_mapped = Some (tt, s1) /\
             run (R_init_BGData 1%N) s1 = Some (tt, RHost.initialized) /\
             same_library_view 1%N s1 RHost.initialized.
Proof.
  split; [exact R_host_laws|].
  split; [reflexivity|].
  apply (@init_twice_same_view RHost.R_host R_host_laws
           1%N RHost.just_mapped RHost.initialized tt).
  reflexivity.
Defined.
